(** * ProjPool backend: the application factory of [app.py]

    A shallow embedding of [create_app] and of the JWT callbacks it
    registers, together with the properties the specification states
    about them.

    Python dictionaries with string keys ([app.config], [os.environ], a
    JWT header or payload, the body handed to [jsonify]) are finite maps
    [gmap string _]; a call that can raise returns a [result].  What
    [create_app] takes from the libraries and from the process without
    defining it is a parameter ([Libraries]). *)

From stdpp Require Import base strings list gmap pretty.
From Stdlib Require Import ZArith.

Local Open Scope Z_scope.

(** ** Python values *)

(** [datetime.timedelta], normalised as CPython stores it: any number of
    days, [0 <= seconds < 86400], [0 <= microseconds < 1000000]. *)
Record timedelta := mk_timedelta {
  days : Z;
  seconds : Z;
  microseconds : Z
}.

(** [timedelta(hours = h, minutes = m)]. *)
Definition timedelta_of (hours minutes : Z) : timedelta :=
  let total := (hours * 60 + minutes) * 60 in
  {| days := total `div` 86400; seconds := total `mod` 86400; microseconds := 0 |}.

Definition total_seconds (d : timedelta) : Z :=
  days d * 86400 + seconds d.

Definition timedelta_eqb (a b : timedelta) : bool :=
  (days a =? days b) && (seconds a =? seconds b) && (microseconds a =? microseconds b).

(** The values that flow through this module: configuration entries, JWT
    identities and the entries of headers, payloads and JSON bodies.  A
    dictionary nested inside a value is kept as its key/value list. *)
#[warnings="-register-all"]
Inductive PyVal : Type :=
  | PyNone
  | PyBool (b : bool)
  | PyInt (n : Z)
  | PyStr (s : string)
  | PyTimedelta (d : timedelta)
  | PyList (xs : list PyVal)
  | PyDict (kvs : list (string * PyVal)).

(** Lookup in a nested dictionary's key/value list. *)
Fixpoint assoc_get {A : Type} (k : string) (kvs : list (string * A)) : option A :=
  match kvs with
  | [] => None
  | (k', v) :: rest => if String.eqb k' k then Some v else assoc_get k rest
  end.

(** Python's [a == b] on these values.  [bool] is a subclass of [int], so
    [True == 1]; values of unrelated types are never equal. *)
Fixpoint py_eq (a b : PyVal) {struct a} : bool :=
  match a, b with
  | PyNone, PyNone => true
  | PyBool x, PyBool y => Bool.eqb x y
  | PyBool x, PyInt n => Z.b2z x =? n
  | PyInt n, PyBool x => n =? Z.b2z x
  | PyInt m, PyInt n => m =? n
  | PyStr s, PyStr t => String.eqb s t
  | PyTimedelta d, PyTimedelta e => timedelta_eqb d e
  | PyList xs, PyList ys =>
      (fix all2 (xs ys : list PyVal) {struct xs} : bool :=
         match xs, ys with
         | [], [] => true
         | x :: xs', y :: ys' => py_eq x y && all2 xs' ys'
         | _, _ => false
         end) xs ys
  | PyDict d1, PyDict d2 =>
      (length d1 =? length d2)%nat &&
      (fix sub (d : list (string * PyVal)) {struct d} : bool :=
         match d with
         | [] => true
         | (k, v) :: d' =>
             match assoc_get k d2 with
             | Some w => py_eq v w
             | None => false
             end && sub d'
         end) d1
  | _, _ => false
  end.

(** [str(n)] for an integer [n]: its decimal numeral. *)
Definition str (n : Z) : string := pretty n.

(** ** Exceptions *)

Inductive exn : Type :=
  | KeyError (key : string)
  | ConflictingIdError (job_id : string)
  | RuntimeError
  | ArgumentError
  | NoSuchModuleError.

Inductive result (A : Type) : Type :=
  | Ok (a : A)
  | Raise (e : exn).
Arguments Ok {A} a.
Arguments Raise {A} e.

#[global] Instance result_ret : MRet result := @Ok.
#[global] Instance result_bind : MBind result := fun A B f m =>
  match m with
  | Ok a => f a
  | Raise e => Raise e
  end.

(** [d[k]] on a dictionary. *)
Definition getitem (d : gmap string PyVal) (k : string) : result PyVal :=
  match d !! k with
  | Some v => Ok v
  | None => Raise (KeyError k)
  end.

(** [os.getenv(k)]: the variable's value, or [None] when it is unset. *)
Definition getenv (environ : gmap string string) (k : string) : PyVal :=
  match environ !! k with
  | Some s => PyStr s
  | None => PyNone
  end.

(** ** The revoked-token store *)

(** Modelled from the spec: the model class [models.tokens_blocklist.TokenBlocklist]
    is not part of the analysed file.  A revoked-token record carries the
    token's unique identifier and a timestamp; the code below reads only
    the column [jti]. *)
Record TokenBlocklist := {
  jti : string;
  created_at : Z
}.

(** [TokenBlocklist.query.filter_by(jti = value)]: the rows whose [jti]
    column equals [value], in table order.  A JWT carries its [jti] as a
    string, and for a string this is the comparison the query makes; how
    a database driver binds a value of another type (a coercion, an
    error) is the driver's and is not described here, so the statements
    below that depend on the value compared take it to be a string. *)
Definition filter_by_jti (value : PyVal) (query : list TokenBlocklist) : list TokenBlocklist :=
  List.filter (fun row => py_eq (PyStr (jti row)) value) query.

(** [.first()]: the first row of the result, or [None]. *)
Definition first (rows : list TokenBlocklist) : option TokenBlocklist :=
  match rows with
  | [] => None
  | row :: _ => Some row
  end.

(** [bool(x)] on the result of [.first()]: [None] is false, a model
    instance (no [__bool__], no [__len__]) is true. *)
Definition bool_ (x : option TokenBlocklist) : bool :=
  match x with
  | Some _ => true
  | None => false
  end.

(** ** Responses *)

Record Response := {
  json : gmap string PyVal;
  mimetype : string;
  status_code : Z
}.

(** [jsonify(d)]: a JSON response with the default status 200. *)
Definition jsonify (d : gmap string PyVal) : Response :=
  {| json := d; mimetype := "application/json"; status_code := 200 |}.

(** What a view or error handler returning the tuple [(response, status)]
    sends: the response with its status replaced. *)
Definition make_response (rv : Response * Z) : Response :=
  {| json := json (fst rv); mimetype := mimetype (fst rv); status_code := snd rv |}.

(** ** The callbacks defined inside [create_app] *)

Definition add_claims_to_jwt (identity : PyVal) : gmap string PyVal :=
  if py_eq identity (PyStr (str 1))
  then {[ "is_admin" := PyBool true ]}
  else {[ "is_admin" := PyBool false ]}.

Definition check_if_token_in_blocklist
    (query : list TokenBlocklist) (jwt_header jwt_payload : gmap string PyVal) : result bool :=
  jti ← getitem jwt_payload "jti";
  mret (bool_ (first (filter_by_jti jti query))).

Definition revoked_token_callback (jwt_header jwt_payload : gmap string PyVal) : Response * Z :=
  (jsonify {[ "decsription" := PyStr "Token has been revoked";
              "error" := PyStr "token_revoked" ]},
   401).

Definition expired_token_callback (jwt_header jwt_payload : gmap string PyVal) : Response * Z :=
  (jsonify {[ "message" := PyStr "Token has expired";
              "error" := PyStr "token_expired" ]},
   401).

Definition invalid_token_callback (error : string) : Response * Z :=
  (jsonify {[ "message" := PyStr "Signature verification failed";
              "error" := PyStr "invalid_token" ]},
   401).

Definition missing_token_callback (error : string) : Response * Z :=
  (jsonify {[ "description" := PyStr "Request does not contain access token";
              "error" := PyStr "authorization_required" ]},
   401).

(** ** The JWT manager *)

(** The hooks [JWTManager] offers a decorator for. *)
Inductive loader : Type :=
  | additional_claims_loader
  | additional_headers_loader
  | decode_key_loader
  | encode_key_loader
  | expired_token_loader
  | invalid_token_loader
  | needs_fresh_token_loader
  | revoked_token_loader
  | token_in_blocklist_loader
  | token_verification_failed_loader
  | token_verification_loader
  | unauthorized_loader
  | user_identity_loader
  | user_lookup_error_loader
  | user_lookup_loader.

#[global] Instance loader_eq_dec : EqDecision loader.
Proof. solve_decision. Defined.

(** A registered callback, by the shape of its arguments: the identity; a
    token's header and payload, looked up in the revoked-token store; a
    token's header and payload; an error message. *)
Inductive callback : Type :=
  | IdentityCallback (f : PyVal -> gmap string PyVal)
  | BlocklistCallback (f : list TokenBlocklist -> gmap string PyVal -> gmap string PyVal -> result bool)
  | TokenCallback (f : gmap string PyVal -> gmap string PyVal -> Response * Z)
  | ErrorCallback (f : string -> Response * Z).

(** The manager keeps one callback per hook: a decorator applied a second
    time replaces the callback of its hook. *)
Record JWTManager := {
  callbacks : list (loader * callback)
}.

Fixpoint set_callback (l : loader) (cb : callback) (cbs : list (loader * callback))
    : list (loader * callback) :=
  match cbs with
  | [] => [(l, cb)]
  | (l', cb') :: rest =>
      if decide (l' = l) then (l, cb) :: rest else (l', cb') :: set_callback l cb rest
  end.

Fixpoint get_callback (l : loader) (cbs : list (loader * callback)) : option callback :=
  match cbs with
  | [] => None
  | (l', cb) :: rest => if decide (l' = l) then Some cb else get_callback l rest
  end.

(** [@jwt.<l>] applied to a function. *)
Definition register (l : loader) (cb : callback) (jwt : JWTManager) : JWTManager :=
  {| callbacks := set_callback l cb (callbacks jwt) |}.

(** Running the callback registered for a hook on a token, or on an error
    message; [None] when no callback of that shape is registered. *)
Definition call_token_callback (l : loader) (jwt : JWTManager)
    (jwt_header jwt_payload : gmap string PyVal) : option (Response * Z) :=
  match get_callback l (callbacks jwt) with
  | Some (TokenCallback f) => Some (f jwt_header jwt_payload)
  | _ => None
  end.

Definition call_error_callback (l : loader) (jwt : JWTManager) (error : string)
    : option (Response * Z) :=
  match get_callback l (callbacks jwt) with
  | Some (ErrorCallback f) => Some (f error)
  | _ => None
  end.

(** [JWTManager._set_default_configuration_options], for the two options
    this module sets itself: [setdefault] writes only an absent key. *)
Definition setdefault (k : string) (v : PyVal) (config : gmap string PyVal) : gmap string PyVal :=
  match config !! k with
  | Some _ => config
  | None => <[k := v]> config
  end.

Definition jwt_default_configuration (config : gmap string PyVal) : gmap string PyVal :=
  setdefault "JWT_SECRET_KEY" PyNone
    (setdefault "JWT_ACCESS_TOKEN_EXPIRES" (PyTimedelta (timedelta_of 0 15)) config).

(** ** What the libraries and the process supply *)

(** [create_app] calls into Flask, Flask-SQLAlchemy and Flask-APScheduler.
    The parts of their behaviour that its result depends on and that
    [app.py] does not define are parameters, each a function of the
    process environment or of the value handed over:
    - [default_config]: the configuration [Flask(__name__)] starts with
      (its [DEBUG] entry, for one, is read from the environment);
    - [create_engine]: the exception raised while Flask-SQLAlchemy builds
      the engine for a database URL, [None] when the URL is accepted;
    - [get_debug_flag] and [is_running_from_reloader]: the two tests
      Flask-APScheduler's [start] makes before it starts the scheduler. *)
Record Libraries := {
  default_config : gmap string string → gmap string PyVal;
  create_engine : string → option exn;
  get_debug_flag : gmap string string → bool;
  is_running_from_reloader : gmap string string → bool
}.

(** ** The application object, the scheduler and [create_app] *)

Section Assembly.

(** The five blueprints come from [resources.*] and the job body from
    [clean_up]; neither module is part of the analysed file, so the
    objects they export are parameters. *)
Variables Blueprint Callable : Type.
Variables ProjectBlueprint LabelBlueprint UserBlueprint GeminiBlueprint ImageBlueprint : Blueprint.
Variable cleanup_revoked_tokens : Callable.
Variable libraries : Libraries.

(** A job as [add_job(id, func, trigger, **trigger_args)] defines it. *)
Record Job := {
  job_id : string;
  func : Callable;
  trigger : string;
  trigger_args : gmap string PyVal
}.

Record APScheduler := {
  api_enabled : bool;
  running : bool;
  jobs : list Job
}.

(** The application together with the objects bound to it: the locals
    [jwt], [scheduler] and [api] of [create_app] stay reachable from the
    returned [app], and a later call on one of them is a step on this
    state.  [extensions] lists the keys of [app.extensions] in binding
    order; [blueprints] is what [api.register_blueprint] has registered,
    oldest first. *)
Record Flask := {
  import_name : string;
  config : gmap string PyVal;
  extensions : list string;
  jwt : JWTManager;
  scheduler : APScheduler;
  blueprints : list Blueprint
}.

(** [Flask(name)]: the configuration starts from the framework's
    defaults for this environment. *)
Definition new_Flask (name : string) (environ : gmap string string) : Flask :=
  {| import_name := name; config := default_config libraries environ; extensions := [];
     jwt := {| callbacks := [] |};
     scheduler := {| api_enabled := false; running := false; jobs := [] |};
     blueprints := [] |}.

Definition with_config (f : gmap string PyVal -> gmap string PyVal) (app : Flask) : Flask :=
  {| import_name := import_name app; config := f (config app);
     extensions := extensions app; jwt := jwt app;
     scheduler := scheduler app; blueprints := blueprints app |}.

Definition with_jwt (f : JWTManager -> JWTManager) (app : Flask) : Flask :=
  {| import_name := import_name app; config := config app;
     extensions := extensions app; jwt := f (jwt app);
     scheduler := scheduler app; blueprints := blueprints app |}.

Definition with_scheduler (f : APScheduler -> APScheduler) (app : Flask) : Flask :=
  {| import_name := import_name app; config := config app;
     extensions := extensions app; jwt := jwt app;
     scheduler := f (scheduler app); blueprints := blueprints app |}.

(** Binding an extension records its key in [app.extensions]. *)
Definition bind_extension (key : string) (app : Flask) : Flask :=
  {| import_name := import_name app; config := config app;
     extensions := extensions app ++ [key]; jwt := jwt app;
     scheduler := scheduler app; blueprints := blueprints app |}.

(** [app.config[k] = v]. *)
Definition setitem (k : string) (v : PyVal) (app : Flask) : Flask :=
  with_config (insert k v) app.

(** [db.init_app(app)]: raises [RuntimeError] when no database URI is
    configured ([SQLALCHEMY_DATABASE_URI] absent or [None]), and
    whatever building the engine raises on the URI otherwise
    ([ArgumentError] for a value that is neither a string nor a URL
    object); binds the extension when the URI is accepted. *)
Definition db_init_app (app : Flask) : result Flask :=
  match config app !! "SQLALCHEMY_DATABASE_URI" with
  | Some (PyStr url) =>
      match create_engine libraries url with
      | Some e => Raise e
      | None => Ok (bind_extension "sqlalchemy" app)
      end
  | Some PyNone | None => Raise RuntimeError
  | Some _ => Raise ArgumentError
  end.

(** [Api(app)] and [Migrate(app, db)]: each binds its extension. *)
Definition Api (app : Flask) : Flask := bind_extension "flask-smorest" app.
Definition Migrate (app : Flask) : Flask := bind_extension "migrate" app.

(** [JWTManager(app)]: a manager with no callback of the application's
    yet, bound to [app], whose configuration gets the library defaults
    for the keys still absent. *)
Definition new_JWTManager (app : Flask) : Flask :=
  bind_extension "flask-jwt-extended"
    (with_config jwt_default_configuration
       (with_jwt (fun _ => {| callbacks := [] |}) app)).

(** [APScheduler()] followed by [scheduler.init_app(app)]: the scheduler
    reads [SCHEDULER_API_ENABLED] from the configuration. *)
Definition new_APScheduler : APScheduler :=
  {| api_enabled := false; running := false; jobs := [] |}.

Definition scheduler_init_app (app : Flask) : Flask :=
  with_scheduler (fun s =>
    {| api_enabled :=
         match config app !! "SCHEDULER_API_ENABLED" with
         | Some (PyBool b) => b
         | _ => api_enabled s
         end;
       running := running s; jobs := jobs s |}) app.

(** [scheduler.start()]: returns without starting the scheduler when the
    Flask debug flag is set and the process is not the reloader's child. *)
Definition start (environ : gmap string string) (s : APScheduler) : APScheduler :=
  {| api_enabled := api_enabled s;
     running :=
       if get_debug_flag libraries environ && negb (is_running_from_reloader libraries environ)
       then running s
       else true;
     jobs := jobs s |}.

(** [scheduler.add_job(...)]: a running scheduler refuses a second job
    with an id its store already holds; a scheduler not yet started
    keeps the job as pending and checks nothing. *)
Definition add_job (j : Job) (s : APScheduler) : result APScheduler :=
  if bool_decide (job_id j ∈ job_id <$> jobs s) && running s
  then Raise (ConflictingIdError (job_id j))
  else Ok {| api_enabled := api_enabled s; running := running s; jobs := jobs s ++ [j] |}.

Definition scheduler_add_job (j : Job) (app : Flask) : result Flask :=
  s ← add_job j (scheduler app);
  mret (with_scheduler (fun _ => s) app).

(** [api.register_blueprint(bp)]. *)
Definition register_blueprint (bp : Blueprint) (app : Flask) : Flask :=
  {| import_name := import_name app; config := config app;
     extensions := extensions app; jwt := jwt app;
     scheduler := scheduler app; blueprints := blueprints app ++ [bp] |}.

(** [create_app(db_url = None)], statement by statement.  [os.getenv]
    reads the process environment [environ]; the parameter [db_url] is
    never read.  The call raises what [db.init_app] or [add_job] raises. *)
Definition create_app (environ : gmap string string) (db_url : option string) : result Flask :=
  let app := new_Flask "app" environ in
  let app := setitem "PROPAGATE_EXCEPTIONS" (PyBool true) app in
  let app := setitem "API_TITLE" (PyStr "ProjPool -- Project Database") app in
  let app := setitem "API_VERSION" (PyStr "v1") app in
  let app := setitem "OPENAPI_VERSION" (PyStr "3.0.3") app in
  let app := setitem "OPENAPI_URL_PREFIX" (PyStr "/") app in
  let app := setitem "OPENAPI_SWAGGER_UI_PATH" (PyStr "/swagger-ui") app in
  let app := setitem "OPENAPI_SWAGGER_UI_URL"
               (PyStr "https://cdn.jsdelivr.net/npm/swagger-ui-dist/") app in
  let app := setitem "SQLALCHEMY_DATABASE_URI" (getenv environ "DATABASE_URL") app in
  let app := setitem "SQLALCHEMY_TRACK_MODIFICATIONS" (PyBool false) app in
  let app := setitem "GCS_BUCKET_NAME" (getenv environ "GCS_BUCKET_NAME") app in
  let app := setitem "GOOGLE_CLOUD_PROJECT_ID" (getenv environ "GOOGLE_CLOUD_PROJECT_ID") app in
  let app := setitem "GOOGLE_CLOUD_GEMINI_MODEL_ID"
               (getenv environ "GOOGLE_CLOUD_GEMINI_MODEL_ID") app in
  let app := setitem "JWT_SECRET_KEY" (getenv environ "JWT_SECRET_KEY") app in
  app ← db_init_app app;
  let app := Api app in
  let app := Migrate app in
  let app := new_JWTManager app in
  let app := setitem "JWT_ACCESS_TOKEN_EXPIRES" (PyTimedelta (timedelta_of 3 0)) app in
  let app := setitem "SCHEDULER_API_ENABLED" (PyBool true) app in
  let app := with_scheduler (fun _ => new_APScheduler) app in
  let app := scheduler_init_app app in
  let app := with_scheduler (start environ) app in
  app ← scheduler_add_job
           {| job_id := "cleanup_revoked_tokens";
              func := cleanup_revoked_tokens;
              trigger := "cron";
              trigger_args := {[ "hour" := PyInt 3; "minute" := PyInt 0 ]} |} app;
  let app := with_jwt (register additional_claims_loader
                         (IdentityCallback add_claims_to_jwt)) app in
  let app := with_jwt (register token_in_blocklist_loader
                         (BlocklistCallback check_if_token_in_blocklist)) app in
  let app := with_jwt (register revoked_token_loader
                         (TokenCallback revoked_token_callback)) app in
  let app := with_jwt (register expired_token_loader
                         (TokenCallback expired_token_callback)) app in
  let app := with_jwt (register invalid_token_loader
                         (ErrorCallback invalid_token_callback)) app in
  let app := with_jwt (register unauthorized_loader
                         (ErrorCallback missing_token_callback)) app in
  let app := register_blueprint ImageBlueprint app in
  let app := register_blueprint LabelBlueprint app in
  let app := register_blueprint ProjectBlueprint app in
  let app := register_blueprint UserBlueprint app in
  let app := register_blueprint GeminiBlueprint app in
  mret app.

End Assembly.

Arguments job_id {Callable} _.
Arguments func {Callable} _.
Arguments trigger {Callable} _.
Arguments trigger_args {Callable} _.
Arguments api_enabled {Callable} _.
Arguments running {Callable} _.
Arguments jobs {Callable} _.
Arguments import_name {Blueprint Callable} _.
Arguments config {Blueprint Callable} _.
Arguments extensions {Blueprint Callable} _.
Arguments jwt {Blueprint Callable} _.
Arguments scheduler {Blueprint Callable} _.
Arguments blueprints {Blueprint Callable} _.
Arguments add_job {Callable} _ _.
Arguments create_app {Blueprint Callable} _ _ _ _ _ _ _ _ _.

(** The error envelope of the specification, [{text_key: <text>, "error": <code>}]:
    a JSON object with exactly the two keys [text_key] and ["error"],
    a text under the first and the error code under the second. *)
Definition envelope (text_key code : string) (body : gmap string PyVal) : Prop :=
  dom body = {[ text_key; "error" ]} ∧
  size body = 2%nat ∧
  (∃ text, body !! text_key = Some (PyStr text)) ∧
  body !! "error" = Some (PyStr code).

(** The environment variables [create_app] passes to [os.getenv]. *)
Definition consumed_variables : list string :=
  [ "DATABASE_URL"; "GCS_BUCKET_NAME"; "GOOGLE_CLOUD_PROJECT_ID";
    "GOOGLE_CLOUD_GEMINI_MODEL_ID"; "JWT_SECRET_KEY" ].

(** Which configuration key receives which environment variable
    (lines 34 to 41). *)
Definition config_keys : list (string * string) :=
  [ ("DATABASE_URL", "SQLALCHEMY_DATABASE_URI");
    ("GCS_BUCKET_NAME", "GCS_BUCKET_NAME");
    ("GOOGLE_CLOUD_PROJECT_ID", "GOOGLE_CLOUD_PROJECT_ID");
    ("GOOGLE_CLOUD_GEMINI_MODEL_ID", "GOOGLE_CLOUD_GEMINI_MODEL_ID");
    ("JWT_SECRET_KEY", "JWT_SECRET_KEY") ].

(** Two application instances register the same [n_blueprints] blueprints,
    in the same order, and the same [n_callbacks] JWT callbacks. *)
Definition same_registrations {Blueprint Callable : Type}
    (n_blueprints n_callbacks : nat) (app1 app2 : Flask Blueprint Callable) : Prop :=
  blueprints app1 = blueprints app2 ∧
  length (blueprints app1) = n_blueprints ∧
  callbacks (jwt app1) = callbacks (jwt app2) ∧
  length (callbacks (jwt app1)) = n_callbacks.

(** Stand-ins for the examples at the end of the file: string names for
    the imported objects, a library that accepts SQLite URLs, and an
    environment with the database URL and the signing key set. *)
Definition example_libraries : Libraries :=
  {| default_config := λ environ,
       {[ "DEBUG" := PyBool (bool_decide (environ !! "FLASK_DEBUG" = Some "1")) ]};
     create_engine := λ url,
       if String.prefix "sqlite:///" url then None else Some ArgumentError;
     get_debug_flag := λ environ, bool_decide (environ !! "FLASK_DEBUG" = Some "1");
     is_running_from_reloader := λ environ,
       bool_decide (environ !! "WERKZEUG_RUN_MAIN" = Some "true") |}.

Definition example_environ : gmap string string :=
  {[ "DATABASE_URL" := "sqlite:///data.db"; "JWT_SECRET_KEY" := "s3cret" ]}.

Abbreviation example_create_app :=
  (create_app "Projects" "Labels" "Users" "Gemini" "Images" "cleanup_revoked_tokens"
     example_libraries).

(** * Properties *)

(** ** Equality with a string *)

Lemma py_eq_PyStr_r (v : PyVal) (s : string) :
  py_eq v (PyStr s) = true ↔ v = PyStr s.
Proof.
  destruct v as [ | b | n | t | d | xs | kvs ]; simpl; split; try discriminate.
  - intros H. apply String.eqb_eq in H. by subst.
  - intros [= ->]. apply String.eqb_refl.
Qed.

Lemma py_eq_PyStr_l (v : PyVal) (s : string) :
  py_eq (PyStr s) v = true ↔ v = PyStr s.
Proof.
  destruct v as [ | b | n | t | d | xs | kvs ]; simpl; split; try discriminate.
  - intros H. apply String.eqb_eq in H. by subst.
  - intros [= ->]. apply String.eqb_refl.
Qed.

Lemma py_eq_not_str (v : PyVal) (s : string) :
  (∀ t, v ≠ PyStr t) → py_eq v (PyStr s) = false.
Proof.
  intros Hns. destruct (py_eq v (PyStr s)) eqn:E; [ | done ].
  apply py_eq_PyStr_r in E. by destruct (Hns s).
Qed.

(** ** The query [filter_by(jti = ...).first()] *)

Lemma first_filter_Some (f : TokenBlocklist → bool) (query : list TokenBlocklist) :
  bool_ (first (List.filter f query)) = existsb f query.
Proof.
  induction query as [ | row rest IH ]; simpl; [ done | ].
  destruct (f row); simpl; [ done | exact IH ].
Qed.

Lemma blocklist_lookup (t : string) (query : list TokenBlocklist) :
  bool_ (first (filter_by_jti (PyStr t) query)) = true ↔ ∃ row, row ∈ query ∧ jti row = t.
Proof.
  unfold filter_by_jti. rewrite first_filter_Some, existsb_exists.
  split; intros (row & Hin & Hrow); exists row.
  - apply py_eq_PyStr_l in Hrow. split; [ by apply list_elem_of_In | congruence ].
  - split; [ by apply list_elem_of_In | apply py_eq_PyStr_l; congruence ].
Qed.

Lemma getitem_Some (d : gmap string PyVal) (k : string) (v : PyVal) :
  d !! k = Some v → getitem d k = Ok v.
Proof. unfold getitem. by intros ->. Qed.

Lemma getitem_None (d : gmap string PyVal) (k : string) :
  d !! k = None → getitem d k = Raise (KeyError k).
Proof. unfold getitem. by intros ->. Qed.

(** C1. For every token identifier: when a revoked-token record with that
    [jti] is in the store the revocation check returns true, and when no
    record with that [jti] is in the store it returns false. *)
Theorem check_if_token_in_blocklist_correct
    (query : list TokenBlocklist) (jwt_header jwt_payload : gmap string PyVal) (t : string) :
  jwt_payload !! "jti" = Some (PyStr t) →
  ((∃ row, row ∈ query ∧ jti row = t) →
     check_if_token_in_blocklist query jwt_header jwt_payload = Ok true) ∧
  ((∀ row, row ∈ query → jti row ≠ t) →
     check_if_token_in_blocklist query jwt_header jwt_payload = Ok false).
Proof.
  intros Hjti. unfold check_if_token_in_blocklist.
  rewrite (getitem_Some _ _ _ Hjti). simpl.
  split.
  - intros Hin. apply blocklist_lookup in Hin. by rewrite Hin.
  - intros Hout.
    destruct (bool_ (first (filter_by_jti (PyStr t) query))) eqn:E; [ | done ].
    apply blocklist_lookup in E as (row & Hin & Hrow).
    by destruct (Hout row Hin).
Qed.

Lemma check_if_token_in_blocklist_correct_witness :
  check_if_token_in_blocklist
    [ {| jti := "a1"; created_at := 10 |}; {| jti := "b2"; created_at := 20 |} ]
    ∅ {[ "jti" := PyStr "b2" ]} = Ok true ∧
  check_if_token_in_blocklist
    [ {| jti := "a1"; created_at := 10 |}; {| jti := "b2"; created_at := 20 |} ]
    ∅ {[ "jti" := PyStr "c3" ]} = Ok false.
Proof.
  split.
  - apply (check_if_token_in_blocklist_correct _ ∅ {[ "jti" := PyStr "b2" ]} "b2").
    + reflexivity.
    + exists {| jti := "b2"; created_at := 20 |}. split; [ | reflexivity ].
      apply list_elem_of_In. simpl. auto.
  - apply (check_if_token_in_blocklist_correct _ ∅ {[ "jti" := PyStr "c3" ]} "c3").
    + reflexivity.
    + intros row Hin. apply list_elem_of_In in Hin. simpl in Hin.
      destruct Hin as [ <- | [ <- | [] ] ]; discriminate.
Defined.

(** C9. The revocation check returns a boolean only if the payload has
    the key ["jti"]: on a payload without it the subscript
    [jwt_payload["jti"]] raises [KeyError] and no boolean is returned,
    and on a payload whose ["jti"] is a string a boolean is returned. *)
Theorem check_if_token_in_blocklist_needs_jti
    (query : list TokenBlocklist) (jwt_header jwt_payload : gmap string PyVal) :
  (jwt_payload !! "jti" = None →
     check_if_token_in_blocklist query jwt_header jwt_payload = Raise (KeyError "jti")) ∧
  (∀ b : bool,
     check_if_token_in_blocklist query jwt_header jwt_payload = Ok b →
     is_Some (jwt_payload !! "jti")) ∧
  (∀ t : string,
     jwt_payload !! "jti" = Some (PyStr t) →
     ∃ b : bool, check_if_token_in_blocklist query jwt_header jwt_payload = Ok b).
Proof.
  unfold check_if_token_in_blocklist. split; [ | split ].
  - intros Hnone. by rewrite (getitem_None _ _ Hnone).
  - intros b. destruct (jwt_payload !! "jti") as [ v | ] eqn:Hjti; [ by eauto | ].
    by rewrite (getitem_None _ _ Hjti).
  - intros t Hjti. rewrite (getitem_Some _ _ _ Hjti). simpl. eauto.
Qed.

Lemma check_if_token_in_blocklist_needs_jti_witness :
  check_if_token_in_blocklist [ {| jti := "a1"; created_at := 10 |} ] ∅ {[ "sub" := PyStr "1" ]}
    = Raise (KeyError "jti") ∧
  ∃ b : bool,
    check_if_token_in_blocklist [ {| jti := "a1"; created_at := 10 |} ] ∅ {[ "jti" := PyStr "a1" ]}
      = Ok b.
Proof.
  split.
  - apply (check_if_token_in_blocklist_needs_jti _ ∅ {[ "sub" := PyStr "1" ]}). reflexivity.
  - apply (check_if_token_in_blocklist_needs_jti _ ∅ {[ "jti" := PyStr "a1" ]} : _ ∧ _ ∧ _)
      with (t := "a1").
    reflexivity.
Defined.

(** ** Claim augmentation *)

(** C3. For every identity, [add_claims_to_jwt] returns
    [{"is_admin": True}] when the identity is the string ["1"] and
    [{"is_admin": False}] for every other identity. *)
Theorem add_claims_to_jwt_correct (identity : PyVal) :
  (identity = PyStr "1" → add_claims_to_jwt identity = {[ "is_admin" := PyBool true ]}) ∧
  (identity ≠ PyStr "1" → add_claims_to_jwt identity = {[ "is_admin" := PyBool false ]}).
Proof.
  unfold add_claims_to_jwt.
  destruct (py_eq identity (PyStr (str 1))) eqn:E.
  - apply py_eq_PyStr_r in E. split; [ done | ]. intros Hne. by destruct Hne.
  - split; [ | done ]. intros ->. discriminate E.
Qed.

Lemma add_claims_to_jwt_correct_witness :
  add_claims_to_jwt (PyStr "1") = {[ "is_admin" := PyBool true ]} ∧
  add_claims_to_jwt (PyStr "2") = {[ "is_admin" := PyBool false ]}.
Proof.
  split.
  - apply (add_claims_to_jwt_correct (PyStr "1")). reflexivity.
  - apply (add_claims_to_jwt_correct (PyStr "2")). discriminate.
Defined.

(** C10. The admin check compares the identity with the string ["1"]
    (the value of [str(1)]), so an identity that is not a string, the
    integer [1] included, gets [{"is_admin": False}]. *)
Theorem add_claims_to_jwt_non_string (identity : PyVal) :
  (∀ s, identity ≠ PyStr s) →
  str 1 = "1" ∧ add_claims_to_jwt identity = {[ "is_admin" := PyBool false ]}.
Proof.
  intros Hns. split; [ reflexivity | ].
  unfold add_claims_to_jwt. by rewrite (py_eq_not_str _ _ Hns).
Qed.

Lemma add_claims_to_jwt_non_string_witness :
  str 1 = "1" ∧ add_claims_to_jwt (PyInt 1) = {[ "is_admin" := PyBool false ]}.
Proof.
  apply (add_claims_to_jwt_non_string (PyInt 1)). intros s. discriminate.
Defined.

(** ** The error envelopes *)

Lemma envelope_literal (text_key text code : string) :
  text_key ≠ "error" →
  envelope text_key code {[ text_key := PyStr text; "error" := PyStr code ]}.
Proof.
  intros Hne. unfold envelope. repeat split.
  - by rewrite dom_insert_L, dom_singleton_L.
  - rewrite map_size_insert_None, map_size_singleton; [ done | ].
    by rewrite lookup_singleton_ne.
  - exists text. apply lookup_insert_eq.
  - rewrite lookup_insert_ne by done. apply lookup_singleton_eq.
Qed.

Lemma error_envelopes_codes (jwt_header jwt_payload : gmap string PyVal) (error : string) :
  json (missing_token_callback error).1 !! "error" = Some (PyStr "authorization_required") ∧
  json (invalid_token_callback error).1 !! "error" = Some (PyStr "invalid_token") ∧
  json (expired_token_callback jwt_header jwt_payload).1 !! "error"
    = Some (PyStr "token_expired") ∧
  json (revoked_token_callback jwt_header jwt_payload).1 !! "error"
    = Some (PyStr "token_revoked").
Proof.
  repeat split; simpl; rewrite lookup_insert_ne by discriminate; apply lookup_singleton_eq.
Qed.

(** C4. The body of every 401 response is a JSON object with exactly two
    keys, a text key (["description"] or ["message"]) and ["error"] with
    the error code; the revoked-token handler alone spells its text key
    ["decsription"], with the text ["Token has been revoked"] and the
    code ["token_revoked"]. *)
Theorem error_bodies_envelope (jwt_header jwt_payload : gmap string PyVal) (error : string) :
  envelope "message" "token_expired" (json (expired_token_callback jwt_header jwt_payload).1) ∧
  envelope "message" "invalid_token" (json (invalid_token_callback error).1) ∧
  envelope "description" "authorization_required" (json (missing_token_callback error).1) ∧
  envelope "decsription" "token_revoked" (json (revoked_token_callback jwt_header jwt_payload).1) ∧
  json (revoked_token_callback jwt_header jwt_payload).1 !! "decsription"
    = Some (PyStr "Token has been revoked") ∧
  json (revoked_token_callback jwt_header jwt_payload).1 !! "description" = None ∧
  json (revoked_token_callback jwt_header jwt_payload).1 !! "message" = None.
Proof.
  do 4 (split; [ by apply envelope_literal | ]).
  unfold revoked_token_callback, jsonify. simpl.
  split; [ apply lookup_insert_eq | ].
  split; rewrite lookup_insert_ne by done; by rewrite lookup_singleton_ne.
Qed.

(** Closes [x ∉ [y1; ...; yn]] when [x] differs from each [yi] by its
    constructors. *)
Ltac not_among :=
  let H := fresh "Hin" in
  rewrite ?elem_of_cons, elem_of_nil; intros H;
  repeat (destruct H as [ H | H ]; [ discriminate H | ]); exact H.

(** ** Registries and defaults *)

Lemma get_set_callback_eq (l : loader) (cb : callback) (cbs : list (loader * callback)) :
  get_callback l (set_callback l cb cbs) = Some cb.
Proof.
  induction cbs as [ | [l' cb'] rest IH ]; simpl.
  - by rewrite decide_True.
  - destruct (decide (l' = l)) as [ -> | Hne ]; simpl.
    + by rewrite decide_True.
    + by rewrite decide_False.
Qed.

Lemma get_set_callback_ne (l l' : loader) (cb : callback) (cbs : list (loader * callback)) :
  l ≠ l' → get_callback l' (set_callback l cb cbs) = get_callback l' cbs.
Proof.
  intros Hne. induction cbs as [ | [l0 cb0] rest IH ]; simpl.
  - by rewrite decide_False.
  - destruct (decide (l0 = l)) as [ -> | Hne0 ]; simpl.
    + by rewrite !decide_False.
    + destruct (decide (l0 = l')); [ done | exact IH ].
Qed.

Lemma length_set_callback_fresh (l : loader) (cb : callback) (cbs : list (loader * callback)) :
  get_callback l cbs = None → length (set_callback l cb cbs) = S (length cbs).
Proof.
  induction cbs as [ | [l' cb'] rest IH ]; simpl; [ done | ].
  destruct (decide (l' = l)); [ done | ].
  intros Hnone. simpl. by rewrite IH.
Qed.

Lemma setdefault_keeps (k k' : string) (d v : PyVal) (config : gmap string PyVal) :
  config !! k' = Some v → setdefault k d config !! k' = Some v.
Proof.
  intros Hv. unfold setdefault.
  destruct (config !! k) eqn:Hk; [ done | ].
  rewrite lookup_insert_ne; [ done | ]. intros ->. congruence.
Qed.

Lemma setdefault_absent (k : string) (d : PyVal) (config : gmap string PyVal) :
  config !! k = None → setdefault k d config !! k = Some d.
Proof. intros Hk. unfold setdefault. rewrite Hk. apply lookup_insert_eq. Qed.

Lemma jwt_default_configuration_keeps (k : string) (v : PyVal) (config : gmap string PyVal) :
  config !! k = Some v → jwt_default_configuration config !! k = Some v.
Proof. intros Hv. unfold jwt_default_configuration. by do 2 apply setdefault_keeps. Qed.

Lemma add_job_fresh {Callable : Type} (j : Job Callable) (s : APScheduler Callable) :
  job_id j ∉ job_id <$> jobs s →
  add_job j s = Ok {| api_enabled := api_enabled s; running := running s; jobs := jobs s ++ [j] |}.
Proof. intros Hfresh. unfold add_job. by rewrite bool_decide_eq_false_2. Qed.

Lemma add_job_conflict {Callable : Type} (j : Job Callable) (s : APScheduler Callable) :
  job_id j ∈ job_id <$> jobs s → running s = true →
  add_job j s = Raise (ConflictingIdError (job_id j)).
Proof. intros Hin Hrunning. unfold add_job. by rewrite bool_decide_eq_true_2, Hrunning. Qed.

Lemma bind_Ok_inv {A B : Type} (m : result A) (f : A → result B) (b : B) :
  m ≫= f = Ok b → ∃ a, m = Ok a ∧ f a = Ok b.
Proof. destruct m as [ a | e ]; simpl; [ eauto | discriminate ]. Qed.

Lemma getenv_inj (environ1 environ2 : gmap string string) (k : string) :
  getenv environ1 k = getenv environ2 k → environ1 !! k = environ2 !! k.
Proof.
  unfold getenv.
  destruct (environ1 !! k), (environ2 !! k); intros Heq; by try injection Heq as ->.
Qed.

Lemma consumed_variable_key (variable : string) :
  variable ∈ consumed_variables → ∃ key, (variable, key) ∈ config_keys.
Proof.
  unfold consumed_variables, config_keys. rewrite !elem_of_cons, elem_of_nil.
  intros Hin. repeat destruct Hin as [ -> | Hin ]; [ .. | done ];
    eexists; rewrite !elem_of_cons; eauto 10.
Qed.

(** ** What [create_app] returns *)

(** The instance at the end of [create_app], field by field: the
    configuration as the sequence of writes over the framework's
    defaults, the extensions in binding order, the six callbacks, the
    scheduler with its one job, the five blueprints. *)
Local Abbreviation assembled ProjectBlueprint LabelBlueprint UserBlueprint GeminiBlueprint
    ImageBlueprint cleanup_revoked_tokens libraries environ :=
  {| import_name := "app";
     config :=
       <["SCHEDULER_API_ENABLED" := PyBool true]>
       (<["JWT_ACCESS_TOKEN_EXPIRES" := PyTimedelta (timedelta_of 3 0)]>
       (jwt_default_configuration
       (<["JWT_SECRET_KEY" := getenv environ "JWT_SECRET_KEY"]>
       (<["GOOGLE_CLOUD_GEMINI_MODEL_ID" := getenv environ "GOOGLE_CLOUD_GEMINI_MODEL_ID"]>
       (<["GOOGLE_CLOUD_PROJECT_ID" := getenv environ "GOOGLE_CLOUD_PROJECT_ID"]>
       (<["GCS_BUCKET_NAME" := getenv environ "GCS_BUCKET_NAME"]>
       (<["SQLALCHEMY_TRACK_MODIFICATIONS" := PyBool false]>
       (<["SQLALCHEMY_DATABASE_URI" := getenv environ "DATABASE_URL"]>
       (<["OPENAPI_SWAGGER_UI_URL" := PyStr "https://cdn.jsdelivr.net/npm/swagger-ui-dist/"]>
       (<["OPENAPI_SWAGGER_UI_PATH" := PyStr "/swagger-ui"]>
       (<["OPENAPI_URL_PREFIX" := PyStr "/"]>
       (<["OPENAPI_VERSION" := PyStr "3.0.3"]>
       (<["API_VERSION" := PyStr "v1"]>
       (<["API_TITLE" := PyStr "ProjPool -- Project Database"]>
       (<["PROPAGATE_EXCEPTIONS" := PyBool true]>
       (default_config libraries environ))))))))))))))));
     extensions := [ "sqlalchemy"; "flask-smorest"; "migrate"; "flask-jwt-extended" ];
     jwt :=
       {| callbacks :=
            [ (additional_claims_loader, IdentityCallback add_claims_to_jwt);
              (token_in_blocklist_loader, BlocklistCallback check_if_token_in_blocklist);
              (revoked_token_loader, TokenCallback revoked_token_callback);
              (expired_token_loader, TokenCallback expired_token_callback);
              (invalid_token_loader, ErrorCallback invalid_token_callback);
              (unauthorized_loader, ErrorCallback missing_token_callback) ] |};
     scheduler :=
       {| api_enabled := true;
          running :=
            if get_debug_flag libraries environ
               && negb (is_running_from_reloader libraries environ)
            then false else true;
          jobs :=
            [ {| job_id := "cleanup_revoked_tokens";
                 func := cleanup_revoked_tokens;
                 trigger := "cron";
                 trigger_args := {[ "hour" := PyInt 3; "minute" := PyInt 0 ]} |} ] |};
     blueprints :=
       [ ImageBlueprint; LabelBlueprint; ProjectBlueprint; UserBlueprint; GeminiBlueprint ] |}.

(** [create_app] as a case analysis on what [db.init_app] finds: the one
    step of the assembly that can fail. *)
Lemma create_app_eq {Blueprint Callable : Type}
    (ProjectBlueprint LabelBlueprint UserBlueprint GeminiBlueprint ImageBlueprint : Blueprint)
    (cleanup_revoked_tokens : Callable) (libraries : Libraries)
    (environ : gmap string string) (db_url : option string) :
  create_app ProjectBlueprint LabelBlueprint UserBlueprint GeminiBlueprint ImageBlueprint
    cleanup_revoked_tokens libraries environ db_url =
  match environ !! "DATABASE_URL" with
  | None => Raise RuntimeError
  | Some url =>
      match create_engine libraries url with
      | Some e => Raise e
      | None =>
          Ok (assembled ProjectBlueprint LabelBlueprint UserBlueprint GeminiBlueprint
                ImageBlueprint cleanup_revoked_tokens libraries environ)
      end
  end.
Proof.
  unfold create_app. cbv zeta. unfold db_init_app.
  cbn -[insert lookup singletonM getenv timedelta_of jwt_default_configuration
        default_config mbind].
  repeat (rewrite lookup_insert_ne by discriminate). rewrite lookup_insert_eq.
  unfold getenv at 1.
  destruct (environ !! "DATABASE_URL") as [ url | ] eqn:Hurl; [ | reflexivity ].
  destruct (create_engine libraries url) as [ e | ]; [ reflexivity | ].
  cbn -[insert lookup singletonM getenv timedelta_of jwt_default_configuration default_config
        scheduler_add_job].
  unfold scheduler_add_job. rewrite add_job_fresh by (cbn; apply not_elem_of_nil).
  cbn -[insert lookup singletonM getenv timedelta_of jwt_default_configuration default_config].
  rewrite lookup_insert_eq.
  reflexivity.
Qed.

Lemma create_app_returns {Blueprint Callable : Type}
    (ProjectBlueprint LabelBlueprint UserBlueprint GeminiBlueprint ImageBlueprint : Blueprint)
    (cleanup_revoked_tokens : Callable) (libraries : Libraries)
    (environ : gmap string string) (db_url : option string) (url : string) :
  environ !! "DATABASE_URL" = Some url →
  create_engine libraries url = None →
  create_app ProjectBlueprint LabelBlueprint UserBlueprint GeminiBlueprint ImageBlueprint
    cleanup_revoked_tokens libraries environ db_url
  = Ok (assembled ProjectBlueprint LabelBlueprint UserBlueprint GeminiBlueprint
          ImageBlueprint cleanup_revoked_tokens libraries environ).
Proof. intros Hurl Hengine. by rewrite create_app_eq, Hurl, Hengine. Qed.

(** ** Application assembly *)

Section AssemblyProperties.

Context {Blueprint Callable : Type}.
Variables ProjectBlueprint LabelBlueprint UserBlueprint GeminiBlueprint ImageBlueprint : Blueprint.
Variable cleanup_revoked_tokens : Callable.
Variable libraries : Libraries.

Local Abbreviation create_app :=
  (create_app ProjectBlueprint LabelBlueprint UserBlueprint GeminiBlueprint ImageBlueprint
     cleanup_revoked_tokens libraries).

Local Abbreviation returned environ :=
  (assembled ProjectBlueprint LabelBlueprint UserBlueprint GeminiBlueprint ImageBlueprint
     cleanup_revoked_tokens libraries environ).

(** When [create_app] returns, the database URL was set and accepted and
    the instance is the assembled one. *)
Lemma create_app_Ok (environ : gmap string string) (db_url : option string)
    (app : Flask Blueprint Callable) :
  create_app environ db_url = Ok app →
  (∃ url, environ !! "DATABASE_URL" = Some url ∧ create_engine libraries url = None) ∧
  app = returned environ.
Proof.
  rewrite create_app_eq.
  destruct (environ !! "DATABASE_URL") as [ url | ]; [ | discriminate ].
  destruct (create_engine libraries url) as [ e | ] eqn:Hengine; [ discriminate | ].
  intros [= <-]. eauto.
Qed.

(** Replaces the instance [create_app] returned by its fields, leaving
    the configuration as the sequence of writes that built it. *)
Ltac inspect_returned H :=
  apply create_app_Ok in H as [_ ->];
  cbn -[insert lookup singletonM getenv timedelta_of jwt_default_configuration default_config].

Ltac lookup_written :=
  repeat (rewrite lookup_insert_ne by discriminate); try apply lookup_insert_eq.

(** C6. An instance [create_app] returns has [JWT_ACCESS_TOKEN_EXPIRES]
    set to a [timedelta] of exactly 3 hours (10800 seconds), whatever
    the framework defaults and the default the JWT manager wrote before,
    and [JWT_SECRET_KEY] set to the value of the environment variable
    [JWT_SECRET_KEY]. *)
Theorem jwt_configuration (environ : gmap string string) (db_url : option string)
    (app : Flask Blueprint Callable) :
  create_app environ db_url = Ok app →
  (∃ d, config app !! "JWT_ACCESS_TOKEN_EXPIRES" = Some (PyTimedelta d) ∧
        d = {| days := 0; seconds := 3 * 3600; microseconds := 0 |} ∧
        total_seconds d = 3 * 3600) ∧
  config app !! "JWT_SECRET_KEY" = Some (getenv environ "JWT_SECRET_KEY") ∧
  (∀ key, environ !! "JWT_SECRET_KEY" = Some key →
          config app !! "JWT_SECRET_KEY" = Some (PyStr key)).
Proof.
  intros Happ. inspect_returned Happ. split; [ | split ].
  - eexists. split; [ lookup_written | split; reflexivity ].
  - lookup_written. apply jwt_default_configuration_keeps. lookup_written.
  - intros key Hset. lookup_written. apply jwt_default_configuration_keeps.
    rewrite lookup_insert_eq. unfold getenv. by rewrite Hset.
Qed.

(** C8. The argument [db_url] is ignored: two calls that differ only in
    [db_url] have the same outcome; when they return, the configurations
    are the same and the database URI in them is the value of the
    environment variable [DATABASE_URL]; and with [DATABASE_URL] unset
    the call raises whatever [db_url] is. *)
Theorem db_url_ignored (environ : gmap string string) (db_url1 db_url2 : option string) :
  create_app environ db_url1 = create_app environ db_url2 ∧
  (∀ app1 app2,
     create_app environ db_url1 = Ok app1 →
     create_app environ db_url2 = Ok app2 →
     config app1 = config app2 ∧
     config app1 !! "SQLALCHEMY_DATABASE_URI" = Some (getenv environ "DATABASE_URL") ∧
     config app2 !! "SQLALCHEMY_DATABASE_URI" = Some (getenv environ "DATABASE_URL")) ∧
  (environ !! "DATABASE_URL" = None →
     create_app environ db_url1 = Raise RuntimeError ∧
     create_app environ db_url2 = Raise RuntimeError).
Proof.
  split; [ rewrite !create_app_eq; reflexivity | ]. split.
  - intros app1 app2 Happ1 Happ2.
    apply create_app_Ok in Happ1 as [_ ->]. inspect_returned Happ2.
    split; [ reflexivity | ].
    split; (lookup_written; apply jwt_default_configuration_keeps; lookup_written).
  - intros Hunset. rewrite !create_app_eq, Hunset. by split.
Qed.

(** C5. An instance [create_app] returns holds exactly one scheduled
    job: its id is ["cleanup_revoked_tokens"], its body is the function
    [cleanup_revoked_tokens], and its trigger is ["cron"] with [hour = 3],
    [minute = 0] and no other field, so it fires once a day at 03:00. *)
Theorem one_cleanup_job (environ : gmap string string) (db_url : option string)
    (app : Flask Blueprint Callable) :
  create_app environ db_url = Ok app →
  ∃ job, jobs (scheduler app) = [ job ] ∧
    job_id job = "cleanup_revoked_tokens" ∧
    func job = cleanup_revoked_tokens ∧
    trigger job = "cron" ∧
    trigger_args job !! "hour" = Some (PyInt 3) ∧
    trigger_args job !! "minute" = Some (PyInt 0) ∧
    dom (trigger_args job) = {[ "hour"; "minute" ]}.
Proof.
  intros Happ. inspect_returned Happ. eexists. split; [ reflexivity | ]. simpl.
  do 3 (split; [ reflexivity | ]).
  split; [ apply lookup_insert_eq | ].
  split; [ rewrite lookup_insert_ne by discriminate; apply lookup_singleton_eq | ].
  by rewrite dom_insert_L, dom_singleton_L.
Qed.

(** C2. For every input, each of the four failure handlers registered on
    an instance [create_app] returns gives the status 401 with its own
    error code: [authorization_required] for a missing token,
    [invalid_token] for an invalid one, [token_expired] for an expired
    one and [token_revoked] for a revoked one; the response sent carries
    that status and no other. *)
Theorem failure_handlers_401 (environ : gmap string string) (db_url : option string)
    (app : Flask Blueprint Callable)
    (jwt_header jwt_payload : gmap string PyVal) (error : string) :
  create_app environ db_url = Ok app →
  (∃ r, call_error_callback unauthorized_loader (jwt app) error = Some (r, 401) ∧
        json r !! "error" = Some (PyStr "authorization_required") ∧
        status_code (make_response (r, 401)) = 401) ∧
  (∃ r, call_error_callback invalid_token_loader (jwt app) error = Some (r, 401) ∧
        json r !! "error" = Some (PyStr "invalid_token") ∧
        status_code (make_response (r, 401)) = 401) ∧
  (∃ r, call_token_callback expired_token_loader (jwt app) jwt_header jwt_payload
          = Some (r, 401) ∧
        json r !! "error" = Some (PyStr "token_expired") ∧
        status_code (make_response (r, 401)) = 401) ∧
  (∃ r, call_token_callback revoked_token_loader (jwt app) jwt_header jwt_payload
          = Some (r, 401) ∧
        json r !! "error" = Some (PyStr "token_revoked") ∧
        status_code (make_response (r, 401)) = 401).
Proof.
  intros Happ. inspect_returned Happ.
  unfold call_error_callback, call_token_callback. simpl.
  repeat split;
    (eexists; split; [ reflexivity | ]; split; [ | reflexivity ];
     simpl; rewrite lookup_insert_ne by discriminate; apply lookup_singleton_eq).
Qed.

(** C7 (amended). Two calls of [create_app] that return, with the same
    environment or with different ones, give instances that register the
    same five blueprints (image, label, project, user, AI assist) in the
    same order and the same six JWT callbacks: claim augmentation, the
    revocation check, and one handler each for revoked, expired, invalid
    and missing tokens. *)
Theorem create_app_deterministic
    (environ1 environ2 : gmap string string) (db_url1 db_url2 : option string)
    (app1 app2 : Flask Blueprint Callable) :
  create_app environ1 db_url1 = Ok app1 →
  create_app environ2 db_url2 = Ok app2 →
  same_registrations 5 6 app1 app2 ∧
  blueprints app1 =
    [ ImageBlueprint; LabelBlueprint; ProjectBlueprint; UserBlueprint; GeminiBlueprint ] ∧
  callbacks (jwt app1) =
    [ (additional_claims_loader, IdentityCallback add_claims_to_jwt);
      (token_in_blocklist_loader, BlocklistCallback check_if_token_in_blocklist);
      (revoked_token_loader, TokenCallback revoked_token_callback);
      (expired_token_loader, TokenCallback expired_token_callback);
      (invalid_token_loader, ErrorCallback invalid_token_callback);
      (unauthorized_loader, ErrorCallback missing_token_callback) ].
Proof.
  intros Happ1 Happ2.
  apply create_app_Ok in Happ1 as [_ ->]. apply create_app_Ok in Happ2 as [_ ->].
  unfold same_registrations.
  cbn -[insert lookup singletonM getenv timedelta_of jwt_default_configuration default_config].
  by repeat split.
Qed.

(** Each consumed variable is in the returned configuration under its key. *)
Lemma config_of_variable (environ : gmap string string) (db_url : option string)
    (app : Flask Blueprint Callable) (variable key : string) :
  create_app environ db_url = Ok app →
  (variable, key) ∈ config_keys →
  config app !! key = Some (getenv environ variable).
Proof.
  intros Happ Hin. inspect_returned Happ.
  unfold config_keys in Hin. rewrite !elem_of_cons, elem_of_nil in Hin.
  repeat destruct Hin as [ [= -> ->] | Hin ]; [ .. | done ];
    lookup_written; apply jwt_default_configuration_keeps; lookup_written.
Qed.

(** X1. In an instance [create_app] returns, every environment variable
    the module consumes is in the configuration under its key
    ([DATABASE_URL] as [SQLALCHEMY_DATABASE_URI], the other four under
    their own names): the string it is set to, the empty string
    included, or [None] when it is unset. *)
Theorem environment_in_config (environ : gmap string string) (db_url : option string)
    (app : Flask Blueprint Callable) :
  create_app environ db_url = Ok app →
  ∀ variable key, (variable, key) ∈ config_keys →
    (∀ value, environ !! variable = Some value → config app !! key = Some (PyStr value)) ∧
    (environ !! variable = None → config app !! key = Some PyNone).
Proof.
  intros Happ variable key Hin.
  rewrite (config_of_variable _ _ _ _ _ Happ Hin). unfold getenv.
  split; [ intros value Hset | intros Hunset ].
  - by rewrite Hset.
  - by rewrite Hunset.
Qed.

(** X2. The documentation settings and the exception policy of an
    instance [create_app] returns: OpenAPI 3.0.3 served at the root, the
    Swagger UI under [/swagger-ui] from the jsDelivr CDN, and
    [PROPAGATE_EXCEPTIONS] switched on, whatever the framework defaults. *)
Theorem documentation_config (environ : gmap string string) (db_url : option string)
    (app : Flask Blueprint Callable) :
  create_app environ db_url = Ok app →
  config app !! "OPENAPI_VERSION" = Some (PyStr "3.0.3") ∧
  config app !! "OPENAPI_URL_PREFIX" = Some (PyStr "/") ∧
  config app !! "OPENAPI_SWAGGER_UI_PATH" = Some (PyStr "/swagger-ui") ∧
  config app !! "OPENAPI_SWAGGER_UI_URL"
    = Some (PyStr "https://cdn.jsdelivr.net/npm/swagger-ui-dist/") ∧
  config app !! "PROPAGATE_EXCEPTIONS" = Some (PyBool true).
Proof.
  intros Happ. inspect_returned Happ.
  repeat split; lookup_written; apply jwt_default_configuration_keeps; lookup_written.
Qed.

(** X4. In an instance [create_app] returns the scheduler has its HTTP
    API enabled and the extensions were bound in the order database, API
    documentation, migrations, JWT; the scheduler is running unless the
    debug flag is set outside the reloader's child process, in which
    case [start] has left it stopped and the job pending. *)
Theorem scheduler_and_extensions (environ : gmap string string) (db_url : option string)
    (app : Flask Blueprint Callable) :
  create_app environ db_url = Ok app →
  api_enabled (scheduler app) = true ∧
  extensions app = [ "sqlalchemy"; "flask-smorest"; "migrate"; "flask-jwt-extended" ] ∧
  (running (scheduler app) = true ↔
   ¬ (get_debug_flag libraries environ = true ∧
      is_running_from_reloader libraries environ = false)).
Proof.
  intros Happ. inspect_returned Happ.
  split; [ reflexivity | ]. split; [ reflexivity | ].
  destruct (get_debug_flag libraries environ), (is_running_from_reloader libraries environ);
    simpl; split; try done; try (intros _ [? ?]; discriminate).
  intros Hno. destruct Hno. by split.
Qed.

(** X8. On an instance [create_app] returns a callback is registered for
    exactly six hooks of the JWT manager, each once: the claims loader,
    the blocklist check and the handlers for revoked, expired, invalid
    and missing tokens.  The other hooks (fresh-token, user lookup,
    token verification, key and header loaders) are left to the library. *)
Theorem registered_hooks (environ : gmap string string) (db_url : option string)
    (app : Flask Blueprint Callable) :
  create_app environ db_url = Ok app →
  NoDup (callbacks (jwt app)).*1 ∧
  ∀ l, is_Some (get_callback l (callbacks (jwt app))) ↔
       l ∈ [ additional_claims_loader; token_in_blocklist_loader; revoked_token_loader;
             expired_token_loader; invalid_token_loader; unauthorized_loader ].
Proof.
  intros Happ. inspect_returned Happ. split.
  - repeat (apply NoDup_cons; split; [ not_among | ]). apply NoDup_nil_2.
  - intros l. split.
    + intros [cb Hcb].
      destruct l;
        first [ vm_compute in Hcb; discriminate Hcb
              | rewrite !elem_of_cons; by eauto 10 ].
    + intros Hin. rewrite !elem_of_cons, elem_of_nil in Hin.
      repeat destruct Hin as [ -> | Hin ]; done.
Qed.

(** X9. [create_app] needs the database URL: with [DATABASE_URL] unset it
    raises [RuntimeError] from [db.init_app], with a URL the engine
    rejects it raises the engine's exception, both whatever [db_url] and
    the other variables are; and it returns only when the variable is
    set to a URL the engine accepts. *)
Theorem create_app_needs_database_url (environ : gmap string string) (db_url : option string) :
  (environ !! "DATABASE_URL" = None → create_app environ db_url = Raise RuntimeError) ∧
  (∀ url e, environ !! "DATABASE_URL" = Some url → create_engine libraries url = Some e →
            create_app environ db_url = Raise e) ∧
  (∀ app, create_app environ db_url = Ok app →
          ∃ url, environ !! "DATABASE_URL" = Some url ∧ create_engine libraries url = None).
Proof.
  split; [ | split ].
  - intros Hunset. by rewrite create_app_eq, Hunset.
  - intros url e Hurl Hengine. by rewrite create_app_eq, Hurl, Hengine.
  - intros app Happ. by apply create_app_Ok in Happ as [Hurl _].
Qed.

(** X11. Each of the five consumed variables matters: when two calls
    return and their environments differ on one of them (in its value,
    or in whether it is set), the configurations returned differ. *)
Theorem create_app_reads_each_consumed
    (environ1 environ2 : gmap string string) (db_url1 db_url2 : option string)
    (app1 app2 : Flask Blueprint Callable) (variable : string) :
  create_app environ1 db_url1 = Ok app1 →
  create_app environ2 db_url2 = Ok app2 →
  variable ∈ consumed_variables →
  environ1 !! variable ≠ environ2 !! variable →
  config app1 ≠ config app2.
Proof.
  intros Happ1 Happ2 Hconsumed Hdiffer Hsame.
  destruct (consumed_variable_key _ Hconsumed) as [key Hkey].
  pose proof (config_of_variable _ _ _ _ _ Happ1 Hkey) as Hconfig1.
  pose proof (config_of_variable _ _ _ _ _ Happ2 Hkey) as Hconfig2.
  rewrite Hsame, Hconfig2 in Hconfig1. injection Hconfig1 as Hgetenv.
  apply Hdiffer. symmetry. exact (getenv_inj _ _ _ Hgetenv).
Qed.


End AssemblyProperties.

(** ** A concrete assembly *)

Local Abbreviation example_app environ :=
  (assembled "Projects" "Labels" "Users" "Gemini" "Images" "cleanup_revoked_tokens"
     example_libraries environ).

(** With the stand-in libraries, [create_app] returns as soon as
    [DATABASE_URL] holds a SQLite URL. *)
Lemma example_returns (environ : gmap string string) (db_url : option string) (url : string) :
  environ !! "DATABASE_URL" = Some url →
  String.prefix "sqlite:///" url = true →
  example_create_app environ db_url = Ok (example_app environ).
Proof.
  intros Hurl Hsqlite. apply (create_app_returns _ _ _ _ _ _ _ _ _ url Hurl).
  cbn. by rewrite Hsqlite.
Qed.

Lemma example_environ_returns (db_url : option string) :
  example_create_app example_environ db_url = Ok (example_app example_environ).
Proof. by apply (example_returns _ _ "sqlite:///data.db"). Qed.

Lemma jwt_configuration_witness :
  ∃ app, example_create_app example_environ None = Ok app ∧
    config app !! "JWT_SECRET_KEY" = Some (PyStr "s3cret").
Proof.
  eexists. split; [ apply example_environ_returns | ].
  apply (jwt_configuration "Projects" "Labels" "Users" "Gemini" "Images"
           "cleanup_revoked_tokens" example_libraries example_environ None _
           (example_environ_returns None)).
  vm_compute. reflexivity.
Defined.

Lemma db_url_ignored_witness :
  example_create_app example_environ None
  = example_create_app example_environ (Some "postgresql://elsewhere/projpool") ∧
  example_create_app ∅ (Some "sqlite:///data.db") = Raise RuntimeError.
Proof.
  split.
  - exact (proj1 (db_url_ignored "Projects" "Labels" "Users" "Gemini" "Images"
                    "cleanup_revoked_tokens" example_libraries example_environ None
                    (Some "postgresql://elsewhere/projpool"))).
  - refine (proj1 (proj2 (proj2 (db_url_ignored "Projects" "Labels" "Users" "Gemini" "Images"
                                   "cleanup_revoked_tokens" example_libraries ∅
                                   (Some "sqlite:///data.db") None)) _)).
    apply lookup_empty.
Defined.

Lemma one_cleanup_job_witness :
  ∃ app, example_create_app example_environ None = Ok app ∧
    ∃ job, jobs (scheduler app) = [ job ] ∧
      job_id job = "cleanup_revoked_tokens" ∧
      func job = "cleanup_revoked_tokens" ∧
      trigger job = "cron" ∧
      trigger_args job !! "hour" = Some (PyInt 3) ∧
      trigger_args job !! "minute" = Some (PyInt 0) ∧
      dom (trigger_args job) = {[ "hour"; "minute" ]}.
Proof.
  eexists. split; [ apply example_environ_returns | ].
  apply (one_cleanup_job "Projects" "Labels" "Users" "Gemini" "Images"
           "cleanup_revoked_tokens" example_libraries example_environ None _
           (example_environ_returns None)).
Defined.

Lemma failure_handlers_401_witness :
  ∃ app, example_create_app example_environ None = Ok app ∧
    ∃ r, call_error_callback unauthorized_loader (jwt app) "Missing Authorization Header"
           = Some (r, 401) ∧
         json r !! "error" = Some (PyStr "authorization_required") ∧
         status_code (make_response (r, 401)) = 401.
Proof.
  eexists. split; [ apply example_environ_returns | ].
  apply (failure_handlers_401 "Projects" "Labels" "Users" "Gemini" "Images"
           "cleanup_revoked_tokens" example_libraries example_environ None _ ∅ ∅
           "Missing Authorization Header" (example_environ_returns None)).
Defined.

Lemma create_app_deterministic_witness :
  ∃ app1 app2,
    example_create_app example_environ None = Ok app1 ∧
    example_create_app {[ "DATABASE_URL" := "sqlite:///other.db"; "FLASK_DEBUG" := "1" ]}
      (Some "sqlite:///third.db") = Ok app2 ∧
    same_registrations 5 6 app1 app2.
Proof.
  do 2 eexists. split; [ apply example_environ_returns | ].
  split; [ by apply (example_returns _ _ "sqlite:///other.db") | ].
  apply (create_app_deterministic "Projects" "Labels" "Users" "Gemini" "Images"
           "cleanup_revoked_tokens" example_libraries example_environ
           {[ "DATABASE_URL" := "sqlite:///other.db"; "FLASK_DEBUG" := "1" ]}
           None (Some "sqlite:///third.db")).
  - apply example_environ_returns.
  - by apply (example_returns _ _ "sqlite:///other.db").
Defined.

(** C7 as first stated counts five JWT callbacks.  With the database URL
    set and accepted, two calls of [create_app] return instances that
    agree on their blueprints and callbacks, but each registers six
    callbacks, not five. *)
Lemma five_callbacks_counterexample :
  ∃ app1 app2 : Flask string string,
    example_create_app example_environ None = Ok app1 ∧
    example_create_app example_environ None = Ok app2 ∧
    length (callbacks (jwt app1)) = 6%nat ∧
    ¬ same_registrations 5 5 app1 app2.
Proof.
  do 2 eexists. do 2 (split; [ apply example_environ_returns | ]).
  split; [ reflexivity | ].
  intros (_ & _ & _ & Hfive).
  cbn -[insert lookup singletonM] in Hfive. discriminate Hfive.
Qed.

Lemma environment_in_config_witness :
  ∃ app, example_create_app example_environ None = Ok app ∧
    config app !! "SQLALCHEMY_DATABASE_URI" = Some (PyStr "sqlite:///data.db") ∧
    config app !! "GCS_BUCKET_NAME" = Some PyNone.
Proof.
  eexists. split; [ apply example_environ_returns | ]. split.
  - apply (environment_in_config "Projects" "Labels" "Users" "Gemini" "Images"
             "cleanup_revoked_tokens" example_libraries example_environ None _
             (example_environ_returns None) "DATABASE_URL").
    + unfold config_keys. apply elem_of_cons. by left.
    + vm_compute. reflexivity.
  - apply (environment_in_config "Projects" "Labels" "Users" "Gemini" "Images"
             "cleanup_revoked_tokens" example_libraries example_environ None _
             (example_environ_returns None) "GCS_BUCKET_NAME").
    + unfold config_keys. apply elem_of_cons. right. apply elem_of_cons. by left.
    + vm_compute. reflexivity.
Defined.

Lemma documentation_config_witness :
  ∃ app, example_create_app example_environ None = Ok app ∧
    config app !! "OPENAPI_VERSION" = Some (PyStr "3.0.3") ∧
    config app !! "OPENAPI_URL_PREFIX" = Some (PyStr "/") ∧
    config app !! "OPENAPI_SWAGGER_UI_PATH" = Some (PyStr "/swagger-ui") ∧
    config app !! "OPENAPI_SWAGGER_UI_URL"
      = Some (PyStr "https://cdn.jsdelivr.net/npm/swagger-ui-dist/") ∧
    config app !! "PROPAGATE_EXCEPTIONS" = Some (PyBool true).
Proof.
  eexists. split; [ apply example_environ_returns | ].
  apply (documentation_config "Projects" "Labels" "Users" "Gemini" "Images"
           "cleanup_revoked_tokens" example_libraries example_environ None _
           (example_environ_returns None)).
Defined.

Lemma scheduler_and_extensions_witness :
  ∃ app, example_create_app example_environ None = Ok app ∧
    api_enabled (scheduler app) = true ∧
    extensions app = [ "sqlalchemy"; "flask-smorest"; "migrate"; "flask-jwt-extended" ] ∧
    (running (scheduler app) = true ↔
     ¬ (get_debug_flag example_libraries example_environ = true ∧
        is_running_from_reloader example_libraries example_environ = false)).
Proof.
  eexists. split; [ apply example_environ_returns | ].
  apply (scheduler_and_extensions "Projects" "Labels" "Users" "Gemini" "Images"
           "cleanup_revoked_tokens" example_libraries example_environ None _
           (example_environ_returns None)).
Defined.

Lemma registered_hooks_witness :
  ∃ app, example_create_app example_environ None = Ok app ∧
    NoDup (callbacks (jwt app)).*1 ∧
    ∀ l, is_Some (get_callback l (callbacks (jwt app))) ↔
         l ∈ [ additional_claims_loader; token_in_blocklist_loader; revoked_token_loader;
               expired_token_loader; invalid_token_loader; unauthorized_loader ].
Proof.
  eexists. split; [ apply example_environ_returns | ].
  apply (registered_hooks "Projects" "Labels" "Users" "Gemini" "Images"
           "cleanup_revoked_tokens" example_libraries example_environ None _
           (example_environ_returns None)).
Defined.

Lemma create_app_needs_database_url_witness :
  example_create_app ∅ None = Raise RuntimeError ∧
  example_create_app {[ "DATABASE_URL" := "" ]} None = Raise ArgumentError.
Proof.
  split.
  - apply (create_app_needs_database_url "Projects" "Labels" "Users" "Gemini" "Images"
             "cleanup_revoked_tokens" example_libraries ∅ None). reflexivity.
  - apply (create_app_needs_database_url "Projects" "Labels" "Users" "Gemini" "Images"
             "cleanup_revoked_tokens" example_libraries {[ "DATABASE_URL" := "" ]} None
           : _ ∧ _ ∧ _) with (url := "").
    + vm_compute. reflexivity.
    + reflexivity.
Defined.


Lemma create_app_reads_each_consumed_witness :
  ∃ app1 app2,
    example_create_app example_environ None = Ok app1 ∧
    example_create_app {[ "DATABASE_URL" := "sqlite:///data.db" ]} None = Ok app2 ∧
    config app1 ≠ config app2.
Proof.
  do 2 eexists. split; [ apply example_environ_returns | ].
  split; [ by apply (example_returns _ _ "sqlite:///data.db") | ].
  apply (create_app_reads_each_consumed "Projects" "Labels" "Users" "Gemini" "Images"
           "cleanup_revoked_tokens" example_libraries example_environ
           {[ "DATABASE_URL" := "sqlite:///data.db" ]} None None _ _ "JWT_SECRET_KEY").
  - apply example_environ_returns.
  - by apply (example_returns _ _ "sqlite:///data.db").
  - unfold consumed_variables. rewrite !elem_of_cons. eauto 10.
  - vm_compute. discriminate.
Defined.

(** ** The revocation check under changes of the store and of the token *)

(** The check as one expression: the subscript, then a search of the rows. *)
Lemma check_if_token_in_blocklist_eq
    (query : list TokenBlocklist) (jwt_header jwt_payload : gmap string PyVal) :
  check_if_token_in_blocklist query jwt_header jwt_payload =
  match jwt_payload !! "jti" with
  | Some value => Ok (existsb (λ row, py_eq (PyStr (jti row)) value) query)
  | None => Raise (KeyError "jti")
  end.
Proof.
  unfold check_if_token_in_blocklist, getitem.
  destruct (jwt_payload !! "jti") as [ value | ]; simpl; [ | done ].
  unfold filter_by_jti. by rewrite first_filter_Some.
Qed.

Lemma existsb_jti (value : PyVal) (query : list TokenBlocklist) :
  existsb (λ row, py_eq (PyStr (jti row)) value) query = true ↔
  ∃ t, value = PyStr t ∧ t ∈ jti <$> query.
Proof.
  rewrite existsb_exists. split.
  - intros (row & Hin & Hrow). apply py_eq_PyStr_l in Hrow.
    exists (jti row). split; [ done | ].
    apply list_elem_of_fmap_2. by apply list_elem_of_In.
  - intros (t & -> & Hin). apply list_elem_of_fmap in Hin as (row & -> & Hin).
    exists row. split; [ by apply list_elem_of_In | by apply py_eq_PyStr_l ].
Qed.

(** X5. The revocation check depends on the store only through the set
    of identifiers it holds: two stores with the same [jti] values give
    the same result on every token, whatever the order, the number of
    copies or the timestamps of their rows, and whatever the header. *)
Theorem blocklist_depends_on_jti_set
    (query1 query2 : list TokenBlocklist) (jwt_header1 jwt_header2 jwt_payload : gmap string PyVal) :
  (∀ t, t ∈ jti <$> query1 ↔ t ∈ jti <$> query2) →
  check_if_token_in_blocklist query1 jwt_header1 jwt_payload
  = check_if_token_in_blocklist query2 jwt_header2 jwt_payload.
Proof.
  intros Hsame. rewrite !check_if_token_in_blocklist_eq.
  destruct (jwt_payload !! "jti") as [ value | ]; [ f_equal | done ].
  apply Bool.eq_iff_eq_true. rewrite !existsb_jti.
  split; intros (t & -> & Hin); exists t; (split; [ done | by apply Hsame ]).
Qed.

Lemma blocklist_depends_on_jti_set_witness :
  check_if_token_in_blocklist
    [ {| jti := "a1"; created_at := 10 |}; {| jti := "b2"; created_at := 20 |};
      {| jti := "a1"; created_at := 30 |} ]
    {[ "alg" := PyStr "HS256" ]} {[ "jti" := PyStr "a1" ]}
  = check_if_token_in_blocklist
      [ {| jti := "b2"; created_at := 5 |}; {| jti := "a1"; created_at := 7 |} ]
      ∅ {[ "jti" := PyStr "a1" ]}.
Proof.
  apply blocklist_depends_on_jti_set.
  intros t. cbn. rewrite !elem_of_cons, elem_of_nil. tauto.
Defined.

(** X6. Adding a record to the store, anywhere among its rows, makes the
    token with that [jti] revoked and changes the answer for no token
    with another [jti]; read the other way, deleting a record changes the
    answer for no other identifier. *)
Theorem blocklist_insert
    (query1 query2 : list TokenBlocklist) (row : TokenBlocklist)
    (jwt_header jwt_payload : gmap string PyVal) (t : string) :
  jwt_payload !! "jti" = Some (PyStr t) →
  (jti row = t →
     check_if_token_in_blocklist (query1 ++ row :: query2) jwt_header jwt_payload = Ok true) ∧
  (jti row ≠ t →
     check_if_token_in_blocklist (query1 ++ row :: query2) jwt_header jwt_payload
     = check_if_token_in_blocklist (query1 ++ query2) jwt_header jwt_payload).
Proof.
  intros Hjti. rewrite !check_if_token_in_blocklist_eq, Hjti.
  rewrite !existsb_app. simpl. split.
  - intros ->. rewrite String.eqb_refl. simpl. by rewrite orb_true_r.
  - intros Hne. apply String.eqb_neq in Hne. by rewrite Hne.
Qed.

Lemma blocklist_insert_witness :
  check_if_token_in_blocklist
    ([ {| jti := "a1"; created_at := 10 |} ] ++ {| jti := "b2"; created_at := 20 |} :: [])
    ∅ {[ "jti" := PyStr "b2" ]} = Ok true ∧
  check_if_token_in_blocklist
    ([ {| jti := "a1"; created_at := 10 |} ] ++ {| jti := "b2"; created_at := 20 |} :: [])
    ∅ {[ "jti" := PyStr "c3" ]}
  = check_if_token_in_blocklist
      ([ {| jti := "a1"; created_at := 10 |} ] ++ []) ∅ {[ "jti" := PyStr "c3" ]}.
Proof.
  split.
  - apply (blocklist_insert _ _ _ ∅ {[ "jti" := PyStr "b2" ]} "b2"); reflexivity.
  - apply (blocklist_insert _ _ _ ∅ {[ "jti" := PyStr "c3" ]} "c3");
      [ reflexivity | discriminate ].
Defined.

(** X7. Of a token, the check reads the claim ["jti"] and nothing else:
    two payloads with the same ["jti"] entry (or both without one) get
    the same answer, whatever their other claims and their headers. *)
Theorem blocklist_reads_only_jti
    (query : list TokenBlocklist)
    (jwt_header1 jwt_header2 jwt_payload1 jwt_payload2 : gmap string PyVal) :
  jwt_payload1 !! "jti" = jwt_payload2 !! "jti" →
  check_if_token_in_blocklist query jwt_header1 jwt_payload1
  = check_if_token_in_blocklist query jwt_header2 jwt_payload2.
Proof. intros Hjti. rewrite !check_if_token_in_blocklist_eq. by rewrite Hjti. Qed.

Lemma blocklist_reads_only_jti_witness :
  check_if_token_in_blocklist [ {| jti := "a1"; created_at := 10 |} ]
    {[ "alg" := PyStr "HS256" ]} {[ "jti" := PyStr "a1"; "sub" := PyStr "1" ]}
  = check_if_token_in_blocklist [ {| jti := "a1"; created_at := 10 |} ]
      ∅ {[ "jti" := PyStr "a1"; "type" := PyStr "refresh" ]}.
Proof. apply blocklist_reads_only_jti. reflexivity. Defined.

(** ** The error codes *)

(** X10. The four failure handlers carry four different error codes, so
    the entry ["error"] of a body alone tells which failure occurred. *)
Theorem error_codes_distinct (jwt_header jwt_payload : gmap string PyVal) (error : string) :
  NoDup [ json (missing_token_callback error).1 !! "error";
          json (invalid_token_callback error).1 !! "error";
          json (expired_token_callback jwt_header jwt_payload).1 !! "error";
          json (revoked_token_callback jwt_header jwt_payload).1 !! "error" ] ∧
  Forall (λ code, ∃ text, code = Some (PyStr text))
    [ json (missing_token_callback error).1 !! "error";
      json (invalid_token_callback error).1 !! "error";
      json (expired_token_callback jwt_header jwt_payload).1 !! "error";
      json (revoked_token_callback jwt_header jwt_payload).1 !! "error" ].
Proof.
  destruct (error_envelopes_codes jwt_header jwt_payload error)
    as (-> & -> & -> & ->).
  split.
  - repeat (apply NoDup_cons; split; [ not_among | ]).
    apply NoDup_nil_2.
  - repeat (apply Forall_cons; split; [ by eexists | ]). apply Forall_nil_2.
Qed.

(** X12. Revocation is monotone in the store: a token the check reports
    revoked stays revoked in every store that holds at least the same
    records. *)
Theorem blocklist_monotone
    (query1 query2 : list TokenBlocklist) (jwt_header jwt_payload : gmap string PyVal) :
  (∀ row, row ∈ query1 → row ∈ query2) →
  check_if_token_in_blocklist query1 jwt_header jwt_payload = Ok true →
  check_if_token_in_blocklist query2 jwt_header jwt_payload = Ok true.
Proof.
  intros Hsub. rewrite !check_if_token_in_blocklist_eq.
  destruct (jwt_payload !! "jti") as [ value | ]; [ | done ].
  intros [= Hfound]. f_equal.
  apply existsb_jti in Hfound as (t & -> & Hin). apply existsb_jti.
  exists t. split; [ done | ].
  apply list_elem_of_fmap in Hin as (row & -> & Hin).
  by apply list_elem_of_fmap_2, Hsub.
Qed.

Lemma blocklist_monotone_witness :
  check_if_token_in_blocklist
    [ {| jti := "c3"; created_at := 30 |}; {| jti := "a1"; created_at := 10 |} ]
    ∅ {[ "jti" := PyStr "a1" ]} = Ok true.
Proof.
  apply (blocklist_monotone [ {| jti := "a1"; created_at := 10 |} ]).
  - intros row Hin. apply list_elem_of_singleton in Hin as ->.
    apply elem_of_cons. right. apply list_elem_of_singleton. reflexivity.
  - reflexivity.
Defined.

(** ** The shape of the additional claims *)

(** X13. Whatever the identity, the additional claims are a dictionary
    with the single key ["is_admin"] holding a boolean, and that boolean
    is true exactly for the string ["1"]; no other claim of the token can
    be set or overwritten through this callback. *)
Theorem add_claims_to_jwt_shape (identity : PyVal) :
  ∃ b : bool,
    add_claims_to_jwt identity = {[ "is_admin" := PyBool b ]} ∧
    dom (add_claims_to_jwt identity) = {[ "is_admin" ]} ∧
    (b = true ↔ identity = PyStr "1").
Proof.
  unfold add_claims_to_jwt.
  destruct (py_eq identity (PyStr (str 1))) eqn:Heq.
  - exists true. split; [ done | ]. split; [ apply dom_singleton_L | ].
    apply py_eq_PyStr_r in Heq. by split.
  - exists false. split; [ done | ]. split; [ apply dom_singleton_L | ].
    split; [ done | ]. intros ->. discriminate Heq.
Qed.
